(** * BudaAgent: the ingestion agent template of [src/agent/buda_agent.js]

    A shallow embedding of the agent's constructor, [start], [exit],
    [connectStorage], [log] and of the per-connection handler, over an
    explicit host state (environment, call log, stream graph), followed by
    the properties of the ingestion pipeline and of its lifecycle. *)

From Stdlib Require Import String Ascii List Bool Arith ZArith Lia.
From stdpp Require Import base option strings list gmap.

Open Scope string_scope.

(** ** JavaScript strings and values *)

Module Js.

(** [s.startsWith(p)], written structurally. *)
Fixpoint starts_with (p s : string) : bool :=
  match p, s with
  | EmptyString, _ => true
  | String _ _, EmptyString => false
  | String a p', String b s' => Ascii.eqb a b && starts_with p' s'
  end.

(** [s.slice(n)]. *)
Fixpoint drop (n : nat) (s : string) : string :=
  match n, s with
  | O, _ => s
  | S _, EmptyString => EmptyString
  | S n', String _ s' => drop n' s'
  end.

(** [s.replace(pat, rep)] for a string pattern: only the first occurrence
    of [pat] is replaced, wherever it stands in [s]. *)
Fixpoint replace (pat rep s : string) : string :=
  if starts_with pat s then rep +:+ drop (String.length pat) s
  else match s with
       | EmptyString => EmptyString
       | String c s' => String c (replace pat rep s')
       end.

(** Truthiness of a string: every string but the empty one. *)
Definition truthy_string (s : string) : bool :=
  match s with EmptyString => false | String _ _ => true end.

(** Truthiness of a property that holds a string or is [undefined]. *)
Definition truthy (o : option string) : bool :=
  match o with Some s => truthy_string s | None => false end.

(** String conversion of a property in a concatenation: [undefined]
    prints as the word. *)
Definition to_string (o : option string) : string :=
  match o with Some s => s | None => "undefined" end.

(** The values that travel through streams and reach the logger. *)
#[local] Unset Elimination Schemes.
Inductive Value : Type :=
  | Null
  | Bool (b : bool)
  | Num (n : Z)
  | Str (s : string)
  | Arr (items : list Value)
  | Obj (props : list (string * Value)).
#[local] Set Elimination Schemes.

(** underscore's [_.isObject]: [typeof] is ['function'] or ['object'] and
    the value is not [null]. *)
Definition isObject (v : Value) : bool :=
  match v with
  | Arr _ | Obj _ => true
  | Null | Bool _ | Num _ | Str _ => false
  end.

End Js.

(** ** The host: process, network, zlib and mongoose *)

(** Stream objects, by identity. *)
Inductive Stream : Type :=
  | Socket (fd : nat)
  | Gunzip (id : nat)
  | ParserStream (id : nat).

#[global] Instance Stream_eq_dec : EqDecision Stream.
Proof. solve_decision. Defined.

(** Values of the options set on a mongoose schema. *)
Inductive SchemaValue : Type :=
  | OptBool (b : bool)
  | OptString (s : string)
  | OptUndefined.

Definition schema_value (o : option string) : SchemaValue :=
  match o with Some s => OptString s | None => OptUndefined end.

Inductive Signal : Type := SIGINT | SIGTERM.

(** One edge of the stream graph: [src.pipe(dst, { end: end_opt })]. *)
Record Pipe : Type := MkPipe {
  pipe_src : Stream;
  pipe_dst : Stream;
  pipe_end : bool
}.

(** The calls the agent makes on its host, as the call log records them.
    [InvokeTransform] and [DocSave] are the two calls a record consumer
    would make: the agent's [transform] method and a write through the
    mongoose model. *)
Inductive Call : Type :=
  | ZlibCreateGunzip (id : nat)
  | NewSchema
  | SchemaSet (key : string) (v : SchemaValue)
  | MongooseModel (name : string)
  | StdinResume
  | ProcessOn (sig : Signal)
  | MongooseConnect (url : string)
  | MongooseDisconnect
  | NetCreateServer (id : nat)
  | ServerListen (id : nat) (endpoint : string)
  | ServerClose (id : nat)
  | StreamPipe (p : Pipe)
  | InvokeCleanup
  | InvokeTransform (record : Js.Value)
  | DocSave (doc : Js.Value)
  | StdoutWrite (chunk : string)
  | ProcessExit.

Inductive Exn : Type :=
  | Error (msg : string)
  | TypeError (msg : string)
  | Raised (c : Call).

(** How a piece of code ends: it returns, it throws, or the process is
    gone ([process.exit]). *)
Inductive Outcome (A : Type) : Type :=
  | Ok (a : A)
  | Throw (e : Exn)
  | Exited.
Arguments Ok {A} a.
Arguments Throw {A} e.
Arguments Exited {A}.

Record Host : Type := MkHost {
  env_STORAGE_PORT : option string;   (* process.env.STORAGE_PORT *)
  faults : Call -> bool;              (* the host calls that raise *)
  next_id : nat;                      (* identity of the next object *)
  calls : list Call;                  (* what was called, oldest first *)
  pipes : list Pipe                   (* the stream graph, oldest first *)
}.

Definition record_call (c : Call) (h : Host) : Host :=
  MkHost (env_STORAGE_PORT h) (faults h) (next_id h) (calls h ++ [c]) (pipes h).

Definition record_pipe (p : Pipe) (h : Host) : Host :=
  MkHost (env_STORAGE_PORT h) (faults h) (next_id h) (calls h) (pipes h ++ [p]).

Definition fresh (h : Host) : nat * Host :=
  (next_id h,
   MkHost (env_STORAGE_PORT h) (faults h) (S (next_id h)) (calls h) (pipes h)).

(** A hook a concrete agent supplies: code that runs on the host only. *)
Definition Hook : Type := Host -> Outcome unit * Host.

(** ** The agent *)

(** The configuration object: [{ hotspot: { location }, compression,
    storage: { ... } }]; [storage] is kept as the object it is, its
    properties looked up by name. *)
Record Conf : Type := MkConf {
  hotspot_location : string;
  compression : option string;
  storage : gmap string string
}.

(** The fields of [this], and the two methods a concrete agent overrides. *)
Record BudaAgent : Type := MkAgent {
  parser : option Stream;
  incoming : option nat;
  endpoint : string;
  config : Conf;
  decrompressor : option Stream;
  storageSchema : gmap string SchemaValue;
  model : option string;
  cleanup : Hook;
  transform : Js.Value -> Js.Value
}.

Definition set_parser (p : option Stream) (a : BudaAgent) : BudaAgent :=
  MkAgent p (incoming a) (endpoint a) (config a) (decrompressor a)
          (storageSchema a) (model a) (cleanup a) (transform a).

Definition set_incoming (i : option nat) (a : BudaAgent) : BudaAgent :=
  MkAgent (parser a) i (endpoint a) (config a) (decrompressor a)
          (storageSchema a) (model a) (cleanup a) (transform a).

Definition set_cleanup (c : Hook) (a : BudaAgent) : BudaAgent :=
  MkAgent (parser a) (incoming a) (endpoint a) (config a) (decrompressor a)
          (storageSchema a) (model a) c (transform a).

(** ** Code of the agent: state, exceptions, process exit *)

(** The state a method runs in: the agent it is bound to and the host. *)
Record St : Type := MkSt {
  this : BudaAgent;
  host : Host
}.

Definition M (A : Type) : Type := St -> Outcome A * St.

Definition ret {A} (a : A) : M A := fun s => (Ok a, s).

Definition bind {A B} (m : M A) (k : A -> M B) : M B :=
  fun s =>
    match m s with
    | (Ok a, s') => k a s'
    | (Throw e, s') => (Throw e, s')
    | (Exited, s') => (Exited, s')
    end.

Definition throw {A} (e : Exn) : M A := fun s => (Throw e, s).

Notation "x <- m ;; k" := (bind m (fun x => k))
  (at level 100, m at next level, right associativity).
Notation "m ;; k" := (bind m (fun _ => k))
  (at level 100, right associativity).

Definition get_this : M BudaAgent := fun s => (Ok (this s), s).

Definition get_host : M Host := fun s => (Ok (host s), s).

Definition on_host {A} (f : Host -> A * Host) : M A :=
  fun s => let (a, h) := f (host s) in (Ok a, MkSt (this s) h).

(** A call on the host: it is recorded, then it returns or raises as the
    host decides. *)
Definition call (c : Call) : M unit :=
  fun s =>
    let s' := MkSt (this s) (record_call c (host s)) in
    if faults (host s) c then (Throw (Raised c), s') else (Ok tt, s').

(** [process.exit()]: when it does not raise, nothing runs after it. *)
Definition process_exit : M unit :=
  fun s =>
    let s' := MkSt (this s) (record_call ProcessExit (host s)) in
    if faults (host s) ProcessExit then (Throw (Raised ProcessExit), s')
    else (Exited, s').

(** A hook of the agent, invoked: the invocation is recorded, then the
    hook runs on the host. *)
Definition invoke (c : Call) (body : Hook) : M unit :=
  fun s =>
    let (o, h) := body (record_call c (host s)) in (o, MkSt (this s) h).

Definition modify (f : BudaAgent -> BudaAgent) : M unit :=
  fun s => (Ok tt, MkSt (f (this s)) (host s)).

Definition set_compression (c : string) (a : BudaAgent) : BudaAgent :=
  MkAgent (parser a) (incoming a) (endpoint a)
          (MkConf (hotspot_location (config a)) (Some c) (storage (config a)))
          (decrompressor a) (storageSchema a) (model a) (cleanup a)
          (transform a).

Definition set_decrompressor (d : option Stream) (a : BudaAgent) : BudaAgent :=
  MkAgent (parser a) (incoming a) (endpoint a) (config a) d
          (storageSchema a) (model a) (cleanup a) (transform a).

Definition set_schema_option (k : string) (v : SchemaValue) (a : BudaAgent)
  : BudaAgent :=
  MkAgent (parser a) (incoming a) (endpoint a) (config a) (decrompressor a)
          (<[k := v]> (storageSchema a)) (model a) (cleanup a) (transform a).

Definition set_model (m : option string) (a : BudaAgent) : BudaAgent :=
  MkAgent (parser a) (incoming a) (endpoint a) (config a) (decrompressor a)
          (storageSchema a) m (cleanup a) (transform a).

(** *** Host objects *)

(** [zlib.createGunzip()]: a new decompression stream. *)
Definition zlib_createGunzip : M Stream :=
  id <- on_host fresh ;;
  call (ZlibCreateGunzip id) ;;
  ret (Gunzip id).

(** [net.createServer(handler)]: a new server, not yet listening. *)
Definition net_createServer : M nat :=
  id <- on_host fresh ;;
  call (NetCreateServer id) ;;
  ret id.

(** [schema.set(key, value)]. *)
Definition schema_set (k : string) (v : SchemaValue) : M unit :=
  call (SchemaSet k v) ;;
  modify (set_schema_option k v).

(** [src.pipe(dst, { end: end_opt })]: the edge joins the stream graph and
    [dst] is returned; a [dst] that is [null] raises. *)
Definition pipe (src : Stream) (dst : option Stream) (end_opt : bool)
  : M Stream :=
  match dst with
  | None => throw (TypeError "Cannot read properties of null (reading 'on')")
  | Some d =>
      call (StreamPipe (MkPipe src d end_opt)) ;;
      on_host (fun h => (tt, record_pipe (MkPipe src d end_opt) h)) ;;
      ret d
  end.

(** *** BudaAgent.prototype *)

(** [cleanup]: nothing by default. *)
Definition prototype_cleanup : Hook := fun h => (Ok tt, h).

(** [transform]: the record itself by default. *)
Definition prototype_transform (record : Js.Value) : Js.Value := record.

(** [function BudaAgent( conf )], on a [this] that holds the prototype's
    methods and nothing else. *)
Definition constructor (conf : Conf) : M unit :=
  modify (set_parser None) ;;
  modify (set_incoming None) ;;
  modify (fun a =>
    MkAgent (parser a) (incoming a) (hotspot_location conf) conf
            (decrompressor a) (storageSchema a) (model a) (cleanup a)
            (transform a)) ;;
  a <- get_this ;;
  (match compression (config a) with
   | None => modify (set_compression "none")
   | Some _ => ret tt
   end) ;;
  a <- get_this ;;
  (if bool_decide (compression (config a) = Some "gzip")
   then z <- zlib_createGunzip ;; modify (set_decrompressor (Some z))
   else modify (set_compression "none") ;; modify (set_decrompressor None)) ;;
  call NewSchema ;;
  schema_set "strict" (OptBool false) ;;
  a <- get_this ;;
  schema_set "collection" (schema_value (storage (config a) !! "collection")) ;;
  call (MongooseModel "Doc") ;;
  modify (set_model (Some "Doc")) ;;
  call StdinResume ;;
  call (ProcessOn SIGINT) ;;
  call (ProcessOn SIGTERM).

Definition blank : BudaAgent :=
  MkAgent None None "" (MkConf "" None ∅) None ∅ None
          prototype_cleanup prototype_transform.

(** [new BudaAgent( conf )]. *)
Definition new_BudaAgent (conf : Conf) (h : Host) : Outcome BudaAgent * Host :=
  match constructor conf (MkSt blank h) with
  | (Ok _, s) => (Ok (this s), host s)
  | (Throw e, s) => (Throw e, host s)
  | (Exited, s) => (Exited, host s)
  end.

(** [connectStorage]: the address comes from the environment, then from
    the configuration, which overrides it. *)
Definition connectStorage : M unit :=
  a <- get_this ;;
  h <- get_host ;;
  let storage0 : option string := None in
  let storage1 :=
    if Js.truthy (env_STORAGE_PORT h)
    then Js.replace "tcp://" "" <$> env_STORAGE_PORT h
    else storage0 in
  let storage2 :=
    if Js.truthy (storage (config a) !! "host")
    then storage (config a) !! "host"
    else storage1 in
  if negb (Js.truthy storage2) then throw (Error "No storage available")
  else
    let storage3 :=
      Js.to_string storage2 +:+ "/" +:+ Js.to_string (storage (config a) !! "db") in
    call (MongooseConnect ("mongodb://" +:+ storage3)).

(** The handler [start] gives to [net.createServer], run on an accepted
    socket. *)
Definition on_connection (socket : Stream) : M unit :=
  a <- get_this ;;
  if negb (bool_decide (compression (config a) = Some "none"))
  then
    d <- pipe socket (decrompressor a) false ;;
    _ <- pipe d (parser a) false ;;
    ret tt
  else
    _ <- pipe socket (parser a) false ;;
    ret tt.

(** [start]. *)
Definition start : M unit :=
  a <- get_this ;;
  if negb (bool_decide (is_Some (parser a)))
  then throw (Error "No parser set for the agent")
  else
    connectStorage ;;
    srv <- net_createServer ;;
    modify (set_incoming (Some srv)) ;;
    a' <- get_this ;;
    call (ServerListen srv (endpoint a')).

(** [exit], the handler of both signals. *)
Definition exit : M unit :=
  a <- get_this ;;
  (match incoming a with
   | Some srv => call (ServerClose srv)
   | None => ret tt
   end) ;;
  call MongooseDisconnect ;;
  a' <- get_this ;;
  invoke InvokeCleanup (cleanup a') ;;
  process_exit.

(** [process.stdout.write(chunk)]: a chunk that is no string raises. *)
Definition stdout_write (chunk : Js.Value) : M unit :=
  match chunk with
  | Js.Str s => call (StdoutWrite s)
  | _ => throw (TypeError "The chunk argument must be of type string")
  end.

Section Logger.

(** [JSON.stringify], the runtime's. *)
Variable JSON_stringify : Js.Value -> string.

(** [log]. *)
Definition log (msg : Js.Value) : M unit :=
  let msg' := if Js.isObject msg then Js.Str (JSON_stringify msg) else msg in
  stdout_write msg'.


End Logger.

(** The state after [code] ran, whatever its outcome. *)
Definition after {A} (code : M A) (s : St) : St := snd (code s).

(** A host none of whose calls raises. *)
Definition healthy (h : Host) : Prop := forall c, faults h c = false.

(** The calls of a record consumer among [cs]. *)
Definition is_consumer_call (c : Call) : bool :=
  match c with
  | InvokeTransform _ | DocSave _ => true
  | _ => false
  end.

Definition consumer_calls (cs : list Call) : list Call :=
  List.filter is_consumer_call cs.

(** ** Data through the stream graph *)

Section Streams.

(** What a stream does with a chunk written to it: its next state and the
    chunks it pushes on its readable side. *)
Variable StreamState : Type.
Variable on_write :
  Stream -> StreamState -> Js.Value -> StreamState * list Js.Value.

(** The stream objects of the process: each one's state, and what it has
    pushed that nothing has read. *)
Record Heap : Type := MkHeap {
  state_of : Stream -> StreamState;
  unread : Stream -> list Js.Value
}.

Definition set_state (d : Stream) (st : StreamState) (hp : Heap) : Heap :=
  MkHeap (fun x => if decide (x = d) then st else state_of hp x) (unread hp).

Definition buffer (s : Stream) (chunk : Js.Value) (hp : Heap) : Heap :=
  MkHeap (state_of hp)
         (fun x => if decide (x = s) then (unread hp x ++ [chunk])%list else unread hp x).

(** The destinations [s] is piped into, one per [pipe] call. *)
Definition dests (g : list Pipe) (s : Stream) : list Stream :=
  pipe_dst <$> filter (fun p => pipe_src p = s) g.

(** [s] pushes [chunk]: with no destination the chunk stays unread in
    [s]; otherwise it is written to every destination, which pushes what
    it makes of it. *)
Fixpoint push (fuel : nat) (g : list Pipe) (s : Stream) (chunk : Js.Value)
  (hp : Heap) : Heap :=
  match fuel with
  | O => hp
  | S fuel' =>
      match dests g s with
      | [] => buffer s chunk hp
      | ds =>
          fold_left
            (fun hp d =>
               let (st, outs) := on_write d (state_of hp d) chunk in
               fold_left (fun hp o => push fuel' g d o hp) outs
                         (set_state d st hp))
            ds hp
      end
  end.

(** A ['data'] event of a socket, on the graph the host holds. *)
Definition socket_data (h : Host) (fd : nat) (chunk : string) (hp : Heap)
  : Heap :=
  push (S (length (pipes h))) (pipes h) (Socket fd) (Js.Str chunk) hp.

End Streams.

Arguments MkHeap {StreamState} _ _.
Arguments state_of {StreamState} _ _.
Arguments unread {StreamState} _ _.

(** ** A concrete agent: lines over a local socket *)

Module Example.

Definition newline : ascii := ascii_of_nat 10.

(** A parser of newline-terminated lines; its state is the line begun and
    not yet ended. *)
Fixpoint split_lines (pending chunk : string) : string * list Js.Value :=
  match chunk with
  | EmptyString => (pending, [])
  | String c rest =>
      if Ascii.eqb c newline
      then let (p, records) := split_lines "" rest in
           (p, Js.Str pending :: records)
      else split_lines (pending +:+ String c "") rest
  end.

(** The streams of the example: the parser splits lines; it is the only
    stream written to (the example runs without compression). *)
Definition lines_write (s : Stream) (st : string) (v : Js.Value)
  : string * list Js.Value :=
  match s, v with
  | ParserStream _, Js.Str chunk => split_lines st chunk
  | _, _ => (st, [])
  end.

Definition heap0 : Heap string := MkHeap (fun _ => "") (fun _ => []).

(** A host with nothing in the environment and no failing call. *)
Definition host0 : Host := MkHost None (fun _ => false) 0 [] [].

(** The same host with [STORAGE_PORT] set. *)
Definition host_env (v : string) : Host :=
  MkHost (Some v) (fun _ => false) 0 [] [].

(** The configuration of the spec's example scenario. *)
Definition conf0 : Conf :=
  MkConf "/tmp/agent.sock" (Some "none")
         (<["host" := "localhost:27017"]>
            (<["db" := "x"]> (<["collectionName" := "docs"]> ∅))).

(** [new BudaAgent(conf0)] on [host0], with the line parser set. *)
Definition created : St :=
  match new_BudaAgent conf0 host0 with
  | (Ok a, h) => MkSt (set_parser (Some (ParserStream 0)) a) h
  | (_, h) => MkSt blank h
  end.

Definition started : St := after start created.

(** An agent of the same configuration that sets no parser. *)
Definition no_parser : St :=
  match new_BudaAgent conf0 host0 with
  | (Ok a, h) => MkSt a h
  | (_, h) => MkSt blank h
  end.

(** An agent whose configuration names no storage host, on a host with
    [STORAGE_PORT] set. *)
Definition conf_no_host : Conf :=
  MkConf "/tmp/agent.sock" (Some "none") (<["db" := "x"]> ∅).

Definition from_env (v : string) : St :=
  MkSt (MkAgent (Some (ParserStream 0)) None "/tmp/agent.sock" conf_no_host
                None ∅ None prototype_cleanup prototype_transform)
       (host_env v).

(** The agent of [conf0] on a host with [STORAGE_PORT] set. *)
Definition both_sources (v : string) : St :=
  MkSt (this created) (host_env v).

(** Two clients connect, one after the other. *)
Definition one_client : St := after (on_connection (Socket 1)) started.
Definition two_clients : St := after (on_connection (Socket 2)) one_client.

(** A line of text as a client sends it. *)
Definition line (s : string) : string := s +:+ String newline "".

(** What the parser has pushed and nothing has read, after [hp]. *)
Definition records (hp : Heap string) : list Js.Value :=
  unread hp (ParserStream 0).

(** Socket [fd] of the two clients receives [chunk]. *)
Definition data (fd : nat) (chunk : string) (hp : Heap string) : Heap string :=
  socket_data string lines_write (host two_clients) fd chunk hp.

(** The same agent with [compression: 'gzip'], and two clients. *)
Definition conf_gzip : Conf :=
  MkConf "/tmp/agent.sock" (Some "gzip")
         (<["host" := "localhost:27017"]> (<["db" := "x"]> ∅)).

Definition created_gzip : St :=
  match new_BudaAgent conf_gzip host0 with
  | (Ok a, h) => MkSt (set_parser (Some (ParserStream 0)) a) h
  | (_, h) => MkSt blank h
  end.

Definition two_gzip_clients : St :=
  after (on_connection (Socket 2))
        (after (on_connection (Socket 1)) (after start created_gzip)).

End Example.

(** ** Notions the properties are stated with *)

(** The database name appended to the address. *)
Definition db_of (s : St) : string :=
  Js.to_string (storage (config (this s)) !! "db").

(** The schema the constructor builds from [conf]. *)
Definition schema_of (conf : Conf) : gmap string SchemaValue :=
  <["collection" := schema_value (storage conf !! "collection")]>
    (<["strict" := OptBool false]> ∅).

Ltac case_faults f :=
  repeat (match goal with |- context [f ?c] => destruct (f c); cbn end).

(** [conf] with one more property on its [storage] object. *)
Definition with_storage (k v : string) (conf : Conf) : Conf :=
  MkConf (hotspot_location conf) (compression conf) (<[k := v]> (storage conf)).

(** A configuration that names its collection [events] the spec's way. *)
Definition conf_events : Conf :=
  MkConf "/tmp/agent.sock" (Some "none")
         (<["host" := "localhost:27017"]>
            (<["db" := "x"]> (<["collectionName" := "events"]> ∅))).

(** The agent of [conf_events], and the calls its constructor made. *)
Definition events_agent : Outcome BudaAgent * Host :=
  new_BudaAgent conf_events Example.host0.

Definition schema_option (k : string) (r : Outcome BudaAgent * Host)
  : option SchemaValue :=
  match fst r with
  | Ok a => storageSchema a !! k
  | _ => None
  end.

(** The host as the first three steps of [exit] leave it, when they
    return: the listener closed (when there is one), storage disconnected,
    the cleanup hook invoked. *)
Definition closed (s : St) : Host :=
  match incoming (this s) with
  | Some srv => record_call (ServerClose srv) (host s)
  | None => host s
  end.

Definition disconnected (s : St) : Host :=
  record_call MongooseDisconnect (closed s).

Definition at_cleanup (s : St) : Host :=
  record_call InvokeCleanup (disconnected s).

(** Whether the listener's [close] raises; an agent with no listener makes
    no such call. *)
Definition close_raises (s : St) : bool :=
  match incoming (this s) with
  | Some srv => faults (host s) (ServerClose srv)
  | None => false
  end.

(** An agent whose cleanup hook throws. *)
Definition failing_cleanup : Hook :=
  fun h => (Throw (Error "cleanup failed"), h).

Definition started_failing_cleanup : St :=
  MkSt (set_cleanup failing_cleanup (this Example.started))
       (host Example.started).

(** The host after [src.pipe(dst, { end: false })] returned. *)
Definition piped (src dst : Stream) (h : Host) : Host :=
  record_pipe (MkPipe src dst false)
              (record_call (StreamPipe (MkPipe src dst false)) h).

(** The chunks written to standard output among [cs]. *)
Fixpoint stdout_chunks (cs : list Call) : list string :=
  match cs with
  | [] => []
  | StdoutWrite chunk :: cs' => chunk :: stdout_chunks cs'
  | _ :: cs' => stdout_chunks cs'
  end.


(** ** Runs of several calls *)

(** The server accepts the clients [fds] one after the other: the handler
    runs once per socket. *)
Fixpoint accept (fds : list nat) : M unit :=
  match fds with
  | [] => ret tt
  | fd :: rest => on_connection (Socket fd) ;; accept rest
  end.

(** The stream graph edges of [fds] piped straight into [p], and of [fds]
    piped into [p] through [z]. *)
Definition plain_edges (p : Stream) (fds : list nat) : list Pipe :=
  List.map (fun fd => MkPipe (Socket fd) p false) fds.

Definition compressed_edges (z p : Stream) (fds : list nat) : list Pipe :=
  List.flat_map
    (fun fd => [MkPipe (Socket fd) z false; MkPipe z p false]) fds.

(** The agent makes the log calls [msgs] one after the other. *)
Fixpoint log_all (JSON_stringify : Js.Value -> string) (msgs : list Js.Value)
  : M unit :=
  match msgs with
  | [] => ret tt
  | m :: rest => log JSON_stringify m ;; log_all JSON_stringify rest
  end.

(** The messages [log] can write: structured values and text. *)
Definition loggable (m : Js.Value) : bool :=
  Js.isObject m || match m with Js.Str _ => true | _ => false end.

(** The chunk [log] writes for a message. *)
Definition rendered (JSON_stringify : Js.Value -> string) (m : Js.Value)
  : string :=
  match m with
  | Js.Str t => t
  | _ => JSON_stringify m
  end.

(** The address [connectStorage] connects to for a configured host. *)
Definition url_of (hst : string) (s : St) : string :=
  "mongodb://" +:+ hst +:+ "/" +:+ db_of s.

(** The state [start] leaves when it returns, having connected to [url]:
    storage connected, a new server created, kept in [incoming] and
    listening on the endpoint. *)
Definition listening (url : string) (s : St) : St :=
  let n := next_id (host s) in
  let h1 := record_call (MongooseConnect url) (host s) in
  let h2 := record_call (NetCreateServer n) (snd (fresh h1)) in
  MkSt (set_incoming (Some n) (this s))
       (record_call (ServerListen n (endpoint (this s))) h2).

(** The calls the constructor makes for [conf], from object identity [n]. *)
Definition constructor_calls (conf : Conf) (n : nat) : list Call :=
  ((if bool_decide (compression conf = Some "gzip")
    then [ZlibCreateGunzip n] else [])
   ++ [NewSchema;
       SchemaSet "strict" (OptBool false);
       SchemaSet "collection" (schema_value (storage conf !! "collection"));
       MongooseModel "Doc";
       StdinResume;
       ProcessOn SIGINT;
       ProcessOn SIGTERM])%list.

(** The agent a constructor run returned. *)
Definition agent_of (r : Outcome BudaAgent * Host) : BudaAgent :=
  match fst r with
  | Ok a => a
  | _ => blank
  end.

(** A configuration whose compression the agent does not know. *)
Definition conf_bzip2 : Conf :=
  MkConf "/tmp/agent.sock" (Some "bzip2")
         (<["host" := "localhost:27017"]> (<["db" := "x"]> ∅)).

(** Agents of the example with no address for storage, with an empty
    host, and with no database name. *)
Definition no_address : St :=
  MkSt (this (Example.from_env "")) Example.host0.

Definition conf_empty_host : Conf :=
  MkConf "/tmp/agent.sock" (Some "none")
         (<["host" := ""]> (<["db" := "x"]> ∅)).

Definition empty_host (v : string) : St :=
  MkSt (MkAgent (Some (ParserStream 0)) None "/tmp/agent.sock" conf_empty_host
                None ∅ None prototype_cleanup prototype_transform)
       (Example.host_env v).

Definition conf_no_db : Conf :=
  MkConf "/tmp/agent.sock" (Some "none") (<["host" := "localhost:27017"]> ∅).

Definition no_db : St :=
  MkSt (MkAgent (Some (ParserStream 0)) None "/tmp/agent.sock" conf_no_db
                None ∅ None prototype_cleanup prototype_transform)
       Example.host0.

(** [pat] occurs in [pre ++ pat ++ post] right after [pre] and nowhere
    before: every way of cutting the string around [pat] cuts it at least
    as far as [pre]. *)
Definition first_occurrence (pat pre post : string) : Prop :=
  forall a b : string,
    pre +:+ pat +:+ post = a +:+ pat +:+ b ->
    String.length pre <= String.length a.

(** [pat] occurs nowhere in [e]. *)
Definition occurs_nowhere (pat e : string) : Prop :=
  forall a b : string, e <> a +:+ pat +:+ b.

(** * Properties *)

(** ** Strings *)

Lemma starts_with_app (p s : string) : Js.starts_with p (p +:+ s) = true.
Proof.
  induction p as [|c p IH]; simpl; [reflexivity|].
  rewrite Ascii.eqb_refl. exact IH.
Qed.

Lemma drop_app (p s : string) : Js.drop (String.length p) (p +:+ s) = s.
Proof. induction p as [|c p IH]; simpl; [destruct s|]; auto. Qed.

(** A pattern that starts the string is the occurrence replaced. *)
Lemma replace_prefix (p rep s : string) :
  Js.replace p rep (p +:+ s) = rep +:+ s.
Proof.
  destruct (p +:+ s) eqn:E; simpl; rewrite <- E.
  - rewrite starts_with_app, drop_app. reflexivity.
  - rewrite starts_with_app, drop_app. reflexivity.
Qed.

Lemma append_nil (s : string) : "" +:+ s = s.
Proof. reflexivity. Qed.

Lemma append_cons (c : ascii) (p s : string) :
  String c p +:+ s = String c (p +:+ s).
Proof. reflexivity. Qed.

(** A string that starts with [p] is [p] followed by the rest. *)
Lemma starts_with_split (p s : string) :
  Js.starts_with p s = true -> s = p +:+ Js.drop (String.length p) s.
Proof.
  revert s. induction p as [|c p IH]; intros s H.
  - destruct s; reflexivity.
  - destruct s as [|d s]; [discriminate|]. cbn in H.
    apply andb_true_iff in H as [Hc Hs]. apply Ascii.eqb_eq in Hc. subst d.
    cbn [String.length Js.drop]. rewrite append_cons. f_equal. now apply IH.
Qed.

(** The occurrence replaced is the first one, wherever it stands. *)
Lemma replace_first_occurrence (pat rep pre post : string) :
  first_occurrence pat pre post ->
  Js.replace pat rep (pre +:+ pat +:+ post) = pre +:+ rep +:+ post.
Proof.
  induction pre as [|c pre IH]; intros H.
  - rewrite !append_nil. apply replace_prefix.
  - unfold first_occurrence in H. rewrite !append_cons in *.
    cbn [Js.replace].
    destruct (Js.starts_with pat (String c (pre +:+ pat +:+ post))) eqn:E.
    + apply starts_with_split in E.
      specialize (H "" (Js.drop (String.length pat)
                          (String c (pre +:+ pat +:+ post)))).
      rewrite append_nil in H. specialize (H E). cbn in H. lia.
    + f_equal. apply IH. intros a b Hab.
      specialize (H (String c a) b). rewrite append_cons, Hab in H.
      specialize (H eq_refl). cbn in H. lia.
Qed.

(** A string in which the pattern occurs nowhere is left as it is. *)
Lemma replace_nowhere (pat rep e : string) :
  occurs_nowhere pat e -> Js.replace pat rep e = e.
Proof.
  induction e as [|c e IH]; intros H.
  - destruct pat; [|reflexivity]. now destruct (H "" "").
  - cbn [Js.replace].
    destruct (Js.starts_with pat (String c e)) eqn:E.
    + apply starts_with_split in E. destruct (H "" _ E).
    + f_equal. apply IH. intros a b Hab.
      apply (H (String c a) b). rewrite append_cons. now rewrite Hab.
Qed.

(** Every string either has a first occurrence of the pattern or none. *)
Lemma occurrence_cases (pat e : string) :
  (exists pre post,
      e = pre +:+ pat +:+ post /\ first_occurrence pat pre post)
  \/ occurs_nowhere pat e.
Proof.
  induction e as [|c e IH].
  - destruct pat as [|d pat].
    + left. exists "", "". split; [reflexivity|]. intros a b _. cbn. lia.
    + right. intros a b. destruct a; discriminate.
  - destruct (Js.starts_with pat (String c e)) eqn:E.
    + left. exists "", (Js.drop (String.length pat) (String c e)).
      split; [now apply starts_with_split|]. intros a b _. cbn. lia.
    + destruct IH as [(pre & post & -> & Hfirst) | Hno].
      * left. exists (String c pre), post. split; [reflexivity|].
        intros a b Hab. destruct a as [|d a].
        -- rewrite append_nil, append_cons in Hab.
           rewrite Hab, starts_with_app in E. discriminate.
        -- rewrite !append_cons in Hab. injection Hab as _ Hab.
           specialize (Hfirst a b Hab). cbn. lia.
      * right. intros a b Hab. destruct a as [|d a].
        -- rewrite append_nil in Hab.
           rewrite Hab, starts_with_app in E. discriminate.
        -- rewrite append_cons in Hab. injection Hab as _ Hab.
           exact (Hno a b Hab).
Qed.

Lemma truthy_string_nonempty (s : string) :
  s <> "" -> Js.truthy_string s = true.
Proof. destruct s; [congruence | reflexivity]. Qed.

(** ** Calls *)

Lemma call_ok (c : Call) (s : St) :
  faults (host s) c = false ->
  call c s = (Ok tt, MkSt (this s) (record_call c (host s))).
Proof. intros H. unfold call. rewrite H. reflexivity. Qed.

Lemma call_raises (c : Call) (s : St) :
  faults (host s) c = true ->
  call c s = (Throw (Raised c), MkSt (this s) (record_call c (host s))).
Proof. intros H. unfold call. rewrite H. reflexivity. Qed.


(** ** The storage address *)

(** A host named by the configuration is the address, whatever the
    environment holds. *)
Lemma connectStorage_config (s : St) (h : string) :
  storage (config (this s)) !! "host" = Some h ->
  h <> "" ->
  connectStorage s
  = call (MongooseConnect ("mongodb://" +:+ h +:+ "/" +:+ db_of s)) s.
Proof.
  intros Hh Hne. unfold connectStorage, bind, get_this, get_host, db_of.
  cbn. rewrite Hh. cbn.
  repeat (rewrite (truthy_string_nonempty h Hne); cbn).
  reflexivity.
Qed.

(** A host that is absent or empty leaves the address to the environment. *)
Lemma connectStorage_env_falsy (s : St) (e : string) :
  Js.truthy (storage (config (this s)) !! "host") = false ->
  env_STORAGE_PORT (host s) = Some e ->
  e <> "" ->
  Js.replace "tcp://" "" e <> "" ->
  connectStorage s
  = call (MongooseConnect
            ("mongodb://" +:+ Js.replace "tcp://" "" e +:+ "/" +:+ db_of s)) s.
Proof.
  intros Hh He Hne Hr. unfold connectStorage, bind, get_this, get_host, db_of.
  cbn. rewrite Hh, He. cbn.
  repeat (rewrite (truthy_string_nonempty e Hne); cbn).
  repeat (rewrite (truthy_string_nonempty _ Hr); cbn).
  reflexivity.
Qed.

(** With no address from either source nothing is connected. *)
Lemma connectStorage_unresolved (s : St) :
  Js.truthy (storage (config (this s)) !! "host") = false ->
  Js.truthy (Js.replace "tcp://" "" <$> env_STORAGE_PORT (host s)) = false ->
  connectStorage s = (Throw (Error "No storage available"), s).
Proof.
  intros Hh He. unfold connectStorage, bind, get_this, get_host.
  cbn. rewrite Hh.
  destruct (Js.truthy (env_STORAGE_PORT (host s))); cbn.
  - rewrite He. reflexivity.
  - reflexivity.
Qed.

(** C5, as the code has it. The storage address [connectStorage] connects
    to is resolved with the configuration before the environment, by
    truthiness: when [config.storage.host] is a non-empty string the
    connection goes to that host, whatever [STORAGE_PORT] holds; when the
    host is absent or the empty string the address is the environment's;
    and when that yields nothing either, nothing is connected. *)
Theorem storage_address_precedence (s : St) :
  (forall h : string,
      storage (config (this s)) !! "host" = Some h ->
      h <> "" ->
      connectStorage s
      = call (MongooseConnect ("mongodb://" +:+ h +:+ "/" +:+ db_of s)) s)
  /\
  (forall e : string,
      Js.truthy (storage (config (this s)) !! "host") = false ->
      env_STORAGE_PORT (host s) = Some e ->
      e <> "" ->
      Js.replace "tcp://" "" e <> "" ->
      connectStorage s
      = call (MongooseConnect
                ("mongodb://" +:+ Js.replace "tcp://" "" e +:+ "/" +:+ db_of s))
             s)
  /\
  (Js.truthy (storage (config (this s)) !! "host") = false ->
   Js.truthy (Js.replace "tcp://" "" <$> env_STORAGE_PORT (host s)) = false ->
   connectStorage s = (Throw (Error "No storage available"), s)).
Proof.
  split; [|split].
  - intros h Hh Hne. now apply connectStorage_config.
  - intros e Hh He Hne Hr. now apply connectStorage_env_falsy.
  - intros Hh He. now apply connectStorage_unresolved.
Qed.

(** The spec's scenario with the environment set as well: the connection
    goes to the configured host. *)
Lemma storage_address_precedence_witness :
  connectStorage (Example.both_sources "tcp://172.17.0.2:27017")
  = call (MongooseConnect "mongodb://localhost:27017/x")
         (Example.both_sources "tcp://172.17.0.2:27017").
Proof.
  apply (proj1 (storage_address_precedence
                  (Example.both_sources "tcp://172.17.0.2:27017"))
               "localhost:27017").
  - vm_compute. reflexivity.
  - discriminate.
Defined.

(** C5, as the claim states it, fails: a configuration whose host is set
    to the empty string does not have that value used; the connection
    goes to the environment's address. *)
Lemma set_but_empty_host_not_used :
  storage (config (this (empty_host "tcp://172.17.0.2:27017"))) !! "host"
  = Some ""
  /\ calls (host (after connectStorage (empty_host "tcp://172.17.0.2:27017")))
     = [MongooseConnect "mongodb://172.17.0.2:27017/x"]
  /\ MongooseConnect "mongodb://172.17.0.2:27017/x"
     <> MongooseConnect "mongodb:///x".
Proof.
  split; [vm_compute; reflexivity|].
  split; [vm_compute; reflexivity | discriminate].
Qed.

(** C6, as the code has it. Of the environment's host, used when the
    configuration's host is absent or empty, only the text [tcp://] is
    removed, at its first occurrence wherever it stands (a leading
    [tcp://] is stripped); a host in which [tcp://] occurs nowhere,
    whatever its scheme, is used as it stands; a host that is [tcp://]
    alone leaves no address. Every host is of one of these kinds. *)
Theorem env_host_tcp_stripped (s : St) (e : string) :
  Js.truthy (storage (config (this s)) !! "host") = false ->
  env_STORAGE_PORT (host s) = Some e ->
  e <> "" ->
  (forall pre post : string,
      e = pre +:+ "tcp://" +:+ post ->
      first_occurrence "tcp://" pre post ->
      pre +:+ post <> "" ->
      connectStorage s
      = call (MongooseConnect
                ("mongodb://" +:+ (pre +:+ post) +:+ "/" +:+ db_of s)) s)
  /\
  (e = "tcp://" ->
   connectStorage s = (Throw (Error "No storage available"), s))
  /\
  (occurs_nowhere "tcp://" e ->
   connectStorage s
   = call (MongooseConnect ("mongodb://" +:+ e +:+ "/" +:+ db_of s)) s)
  /\
  ((exists pre post,
       e = pre +:+ "tcp://" +:+ post /\ first_occurrence "tcp://" pre post)
   \/ occurs_nowhere "tcp://" e).
Proof.
  intros Hh He Hne. split; [|split; [|split]].
  - intros pre post -> Hfirst Hrest.
    pose proof (replace_first_occurrence "tcp://" "" pre post Hfirst) as Hr.
    rewrite append_nil in Hr. rewrite <- Hr.
    apply connectStorage_env_falsy; [exact Hh | exact He | exact Hne |].
    rewrite Hr. exact Hrest.
  - intros ->. apply connectStorage_unresolved; [exact Hh|].
    rewrite He. reflexivity.
  - intros Hno.
    pose proof (replace_nowhere "tcp://" "" e Hno) as Hr.
    rewrite <- Hr at 1.
    apply connectStorage_env_falsy; [exact Hh | exact He | exact Hne |].
    rewrite Hr. exact Hne.
  - apply occurrence_cases.
Qed.

(** A host whose [tcp://] stands past its start: the text is removed
    where it stands. *)
Lemma env_host_tcp_stripped_witness :
  connectStorage (Example.from_env "mongo.tcp://h:1")
  = call (MongooseConnect "mongodb://mongo.h:1/x")
         (Example.from_env "mongo.tcp://h:1").
Proof.
  apply (proj1 (env_host_tcp_stripped
                  (Example.from_env "mongo.tcp://h:1") "mongo.tcp://h:1"
                  eq_refl eq_refl ltac:(discriminate))
               "mongo." "h:1").
  - reflexivity.
  - intros a b H.
    do 6 (destruct a as [|? a];
          [ rewrite append_nil in H; discriminate
          | rewrite !append_cons in H; injection H as _ H ]).
    cbn. lia.
  - discriminate.
Defined.

(** C6, as the claim states it, fails: an environment host of another
    scheme keeps its [udp://] in the address connected to. *)
Lemma env_host_other_scheme_kept :
  calls (host (after connectStorage (Example.from_env "udp://10.0.0.5:27017")))
  = [MongooseConnect "mongodb://udp://10.0.0.5:27017/x"]
  /\ MongooseConnect "mongodb://udp://10.0.0.5:27017/x"
     <> MongooseConnect "mongodb://10.0.0.5:27017/x".
Proof. split; [vm_compute; reflexivity | discriminate]. Qed.

(** ** Start *)

(** C7. On an agent with no parser set, [start] throws the no-parser
    error and leaves the agent and the host as they were: no call was
    made, so no storage connection and no server exist. *)
Theorem start_requires_parser (s : St) :
  parser (this s) = None ->
  start s = (Throw (Error "No parser set for the agent"), s)
  /\ calls (host (after start s)) = calls (host s)
  /\ incoming (this (after start s)) = incoming (this s).
Proof.
  intros Hp.
  assert (E : start s = (Throw (Error "No parser set for the agent"), s)).
  { unfold start, bind, get_this. cbn. rewrite Hp. cbn. reflexivity. }
  unfold after. rewrite E. cbn. auto.
Qed.

Lemma start_requires_parser_witness :
  start Example.no_parser
  = (Throw (Error "No parser set for the agent"), Example.no_parser).
Proof.
  apply (proj1 (start_requires_parser Example.no_parser eq_refl)).
Defined.

(** ** The constructor *)

(** What [this] holds once the constructor has returned. *)
Lemma new_BudaAgent_fields (conf : Conf) (h h1 : Host) (a : BudaAgent) :
  new_BudaAgent conf h = (Ok a, h1) ->
  parser a = None /\ incoming a = None /\
  endpoint a = hotspot_location conf /\
  storage (config a) = storage conf /\
  storageSchema a = schema_of conf /\
  model a = Some "Doc" /\
  cleanup a = prototype_cleanup /\
  ((compression (config a) = Some "none" /\ decrompressor a = None) \/
   (compression (config a) = Some "gzip" /\
    decrompressor a = Some (Gunzip (next_id h)))).
Proof.
  destruct conf as [loc comp stor]. destruct h as [env f n cs ps].
  unfold new_BudaAgent, constructor, bind, modify, get_this, schema_set,
    zlib_createGunzip, on_host, fresh, call, ret, bind.
  cbn.
  destruct comp as [c|]; cbn.
  - case_bool_decide as Hc; cbn.
    + case_faults f; intros E; inversion E; subst; clear E; cbn.
      all: repeat split; auto.
    + case_faults f; intros E; inversion E; subst; clear E; cbn.
      all: repeat split; auto.
  - case_bool_decide as Hc; [discriminate|]; cbn.
    case_faults f; intros E; inversion E; subst; clear E; cbn.
    all: repeat split; auto.
Qed.

(** On a healthy host the constructor returns, and leaves the host's
    environment and health as they were. *)
Lemma new_BudaAgent_returns (conf : Conf) (h : Host) :
  healthy h ->
  exists a h1,
    new_BudaAgent conf h = (Ok a, h1)
    /\ faults h1 = faults h
    /\ env_STORAGE_PORT h1 = env_STORAGE_PORT h.
Proof.
  intros Hh. destruct conf as [loc comp stor]. destruct h as [env f n cs ps].
  unfold healthy in Hh. cbn in Hh.
  unfold new_BudaAgent, constructor, bind, modify, get_this, schema_set,
    zlib_createGunzip, on_host, fresh, call, ret, bind.
  cbn.
  destruct comp as [c|]; cbn.
  - case_bool_decide as Hc; cbn; repeat (rewrite Hh; cbn);
      eexists _, _; (split; [reflexivity | split; reflexivity]).
  - case_bool_decide as Hc; [discriminate|]; cbn; repeat (rewrite Hh; cbn).
    eexists _, _; (split; [reflexivity | split; reflexivity]).
Qed.

Lemma lookup_schema_collection (conf : Conf) :
  schema_of conf !! "collection"
  = Some (schema_value (storage conf !! "collection")).
Proof. unfold schema_of. apply lookup_insert_eq. Qed.

Lemma lookup_schema_strict (conf : Conf) :
  schema_of conf !! "strict" = Some (OptBool false).
Proof.
  unfold schema_of. rewrite lookup_insert_ne by discriminate.
  apply lookup_insert_eq.
Qed.

(** C8, as the code has it. The agent's schema is schema-less ([strict]
    is [false]) and its [collection] option is [config.storage.collection]
    ([undefined] when the configuration has none); the property
    [collectionName] is not read, so setting it changes nothing of the
    schema. The model is registered as [Doc]. *)
Theorem schema_collection_option (conf : Conf) (h : Host) :
  healthy h ->
  exists a h1,
    new_BudaAgent conf h = (Ok a, h1)
    /\ storageSchema a !! "strict" = Some (OptBool false)
    /\ storageSchema a !! "collection"
       = Some (schema_value (storage conf !! "collection"))
    /\ model a = Some "Doc"
    /\ (forall name : string,
        exists a' h1',
          new_BudaAgent (with_storage "collectionName" name conf) h
          = (Ok a', h1')
          /\ storageSchema a' = storageSchema a)
    /\ (forall hst : string,
        storage conf !! "host" = Some hst ->
        hst <> "" ->
        connectStorage (MkSt a h1)
        = call (MongooseConnect
                  ("mongodb://" +:+ hst +:+ "/"
                   +:+ Js.to_string (storage conf !! "db")))
               (MkSt a h1)).
Proof.
  intros Hh.
  destruct (new_BudaAgent_returns conf h Hh) as (a & h1 & E & _ & _).
  exists a, h1.
  destruct (new_BudaAgent_fields conf h h1 a E)
    as (_ & _ & _ & Hst & Hs & Hm & _).
  rewrite Hs. split; [|split; [|split; [|split; [|split]]]].
  - exact E.
  - apply lookup_schema_strict.
  - apply lookup_schema_collection.
  - exact Hm.
  - intros name.
    destruct (new_BudaAgent_returns (with_storage "collectionName" name conf)
                                    h Hh) as (a' & h1' & E' & _ & _).
    exists a', h1'. split; [exact E'|].
    destruct (new_BudaAgent_fields _ h h1' a' E')
      as (_ & _ & _ & _ & Hs' & _).
    rewrite Hs'. unfold schema_of, with_storage. cbn.
    rewrite lookup_insert_ne by discriminate. reflexivity.
  - intros hst Hhost Hne.
    rewrite (connectStorage_config (MkSt a h1) hst); cbn;
      [ unfold db_of; cbn; rewrite Hst; reflexivity
      | rewrite Hst; exact Hhost
      | exact Hne ].
Qed.

Lemma schema_collection_option_witness :
  exists a h1,
    new_BudaAgent conf_events Example.host0 = (Ok a, h1)
    /\ storageSchema a !! "strict" = Some (OptBool false)
    /\ storageSchema a !! "collection"
       = Some (schema_value (storage conf_events !! "collection"))
    /\ model a = Some "Doc".
Proof.
  destruct (schema_collection_option conf_events Example.host0)
    as (a & h1 & E & Hstrict & Hcoll & Hm & _).
  - intros c. reflexivity.
  - exists a, h1. auto.
Defined.

(** C8, as the claim states it, fails: with [collectionName] set to
    [events] the schema's [collection] option is set to [undefined], not
    to [events]. *)
Lemma collectionName_not_read :
  schema_option "collection" events_agent = Some OptUndefined
  /\ In (SchemaSet "collection" OptUndefined) (calls (snd events_agent))
  /\ schema_option "collection" events_agent <> Some (OptString "events").
Proof.
  split; [vm_compute; reflexivity|].
  split; [vm_compute; tauto | vm_compute; discriminate].
Qed.

(** ** Shutdown *)

(** [exit] when every step returns: the four steps, in order. *)
Lemma exit_completes (s : St) (h' : Host) :
  close_raises s = false ->
  faults (host s) MongooseDisconnect = false ->
  cleanup (this s) (at_cleanup s) = (Ok tt, h') ->
  faults h' ProcessExit = false ->
  exit s = (Exited, MkSt (this s) (record_call ProcessExit h')).
Proof.
  intros Hc Hd Hk He.
  unfold exit, bind, get_this, invoke, process_exit, call.
  unfold at_cleanup, disconnected, closed, close_raises in *.
  destruct s as [a h]; cbn in *.
  destruct (incoming a) as [srv|]; cbn in *.
  - rewrite Hc. cbn. rewrite Hd. cbn. rewrite Hk. cbn. rewrite He.
    reflexivity.
  - rewrite Hd. cbn. rewrite Hk. cbn. rewrite He. reflexivity.
Qed.

(** [exit] when closing the listener raises: nothing else runs. *)
Lemma exit_close_raises (s : St) (srv : nat) :
  incoming (this s) = Some srv ->
  faults (host s) (ServerClose srv) = true ->
  exit s = (Throw (Raised (ServerClose srv)), MkSt (this s) (closed s)).
Proof.
  intros Hi Hc. unfold exit, bind, get_this, call, closed.
  destruct s as [a h]; cbn in *. rewrite Hi. cbn. rewrite Hc. reflexivity.
Qed.

(** [exit] when disconnecting raises: no cleanup, no process exit. *)
Lemma exit_disconnect_raises (s : St) :
  close_raises s = false ->
  faults (host s) MongooseDisconnect = true ->
  exit s
  = (Throw (Raised MongooseDisconnect), MkSt (this s) (disconnected s)).
Proof.
  intros Hc Hd. unfold exit, bind, get_this, call.
  unfold disconnected, closed, close_raises in *.
  destruct s as [a h]; cbn in *.
  destruct (incoming a) as [srv|]; cbn in *.
  - rewrite Hc. cbn. rewrite Hd. reflexivity.
  - rewrite Hd. reflexivity.
Qed.

(** [exit] when the cleanup hook throws: the process is not exited. *)
Lemma exit_cleanup_throws (s : St) (e : Exn) (h' : Host) :
  close_raises s = false ->
  faults (host s) MongooseDisconnect = false ->
  cleanup (this s) (at_cleanup s) = (Throw e, h') ->
  exit s = (Throw e, MkSt (this s) h').
Proof.
  intros Hc Hd Hk. unfold exit, bind, get_this, invoke, call.
  unfold at_cleanup, disconnected, closed, close_raises in *.
  destruct s as [a h]; cbn in *.
  destruct (incoming a) as [srv|]; cbn in *.
  - rewrite Hc. cbn. rewrite Hd. cbn. rewrite Hk. reflexivity.
  - rewrite Hd. cbn. rewrite Hk. reflexivity.
Qed.

(** C4, as the code has it. On an agent with a listener, [exit] closes the
    listener, disconnects storage, invokes the cleanup hook and exits the
    process, in this order, as long as each step returns; a step that
    raises ends the sequence there, and no later step runs. *)
Theorem exit_steps_in_order (s : St) (srv : nat) :
  incoming (this s) = Some srv ->
  let h1 := record_call (ServerClose srv) (host s) in
  let h2 := record_call MongooseDisconnect h1 in
  let h3 := record_call InvokeCleanup h2 in
  (faults (host s) (ServerClose srv) = true ->
   exit s = (Throw (Raised (ServerClose srv)), MkSt (this s) h1))
  /\
  (faults (host s) (ServerClose srv) = false ->
   faults (host s) MongooseDisconnect = true ->
   exit s = (Throw (Raised MongooseDisconnect), MkSt (this s) h2))
  /\
  (forall e h4,
      faults (host s) (ServerClose srv) = false ->
      faults (host s) MongooseDisconnect = false ->
      cleanup (this s) h3 = (Throw e, h4) ->
      exit s = (Throw e, MkSt (this s) h4))
  /\
  (forall h4,
      faults (host s) (ServerClose srv) = false ->
      faults (host s) MongooseDisconnect = false ->
      cleanup (this s) h3 = (Ok tt, h4) ->
      faults h4 ProcessExit = false ->
      exit s = (Exited, MkSt (this s) (record_call ProcessExit h4))).
Proof.
  intros Hi h1 h2 h3.
  assert (Hcl : closed s = h1) by (unfold closed; rewrite Hi; reflexivity).
  assert (Hcr : close_raises s = faults (host s) (ServerClose srv))
    by (unfold close_raises; rewrite Hi; reflexivity).
  assert (Hat : at_cleanup s = h3)
    by (unfold at_cleanup, disconnected; rewrite Hcl; reflexivity).
  repeat split.
  - intros Hc. rewrite <- Hcl. now apply exit_close_raises.
  - intros Hc Hd. unfold h2. rewrite <- Hcl.
    apply exit_disconnect_raises; [rewrite Hcr|]; assumption.
  - intros e h4 Hc Hd Hk. apply exit_cleanup_throws; try assumption.
    + now rewrite Hcr.
    + now rewrite Hat.
  - intros h4 Hc Hd Hk He. apply exit_completes; try assumption.
    + now rewrite Hcr.
    + now rewrite Hat.
Qed.

(** The started agent of the example, shut down on a healthy host. *)
Lemma exit_steps_in_order_witness :
  exit Example.started
  = (Exited,
     MkSt (this Example.started)
          (record_call ProcessExit
             (record_call InvokeCleanup
                (record_call MongooseDisconnect
                   (record_call (ServerClose 0) (host Example.started)))))).
Proof.
  apply (proj2 (proj2 (proj2
           (exit_steps_in_order Example.started 0
              ltac:(vm_compute; reflexivity)))));
    vm_compute; reflexivity.
Defined.

(** C4, as the claim states it, fails: when the cleanup hook raises, the
    step after it does not run: [process.exit] is never called. *)
Lemma exit_stops_at_failing_step :
  fst (exit started_failing_cleanup) = Throw (Error "cleanup failed")
  /\ calls (host (after exit started_failing_cleanup))
     = (calls (host started_failing_cleanup)
        ++ [ServerClose 0; MongooseDisconnect; InvokeCleanup])%list
  /\ List.existsb (fun c => match c with ProcessExit => true | _ => false end)
                  (calls (host (after exit started_failing_cleanup)))
     = false.
Proof. split; [|split]; vm_compute; reflexivity. Qed.



(** ** The per-connection pipeline *)

Lemma healthy_piped (src d : Stream) (h : Host) :
  healthy h -> healthy (piped src d h).
Proof. intros Hh c. exact (Hh c). Qed.

(** Without compression the handler makes one pipe: socket to parser. *)
Lemma on_connection_plain (s : St) (socket p : Stream) :
  healthy (host s) ->
  parser (this s) = Some p ->
  compression (config (this s)) = Some "none" ->
  on_connection socket s = (Ok tt, MkSt (this s) (piped socket p (host s))).
Proof.
  intros Hh Hp Hc. destruct s as [a h]. unfold healthy in Hh. cbn in *.
  unfold on_connection, bind, get_this, pipe, call, on_host, ret, bind.
  cbn. rewrite Hc, Hp. rewrite bool_decide_eq_true_2 by reflexivity.
  cbn. repeat (rewrite Hh; cbn). reflexivity.
Qed.

(** With compression it makes two: socket to decompressor, decompressor to
    parser. *)
Lemma on_connection_compressed (s : St) (socket z p : Stream) :
  healthy (host s) ->
  parser (this s) = Some p ->
  compression (config (this s)) <> Some "none" ->
  decrompressor (this s) = Some z ->
  on_connection socket s
  = (Ok tt, MkSt (this s) (piped z p (piped socket z (host s)))).
Proof.
  intros Hh Hp Hc Hz. destruct s as [a h]. unfold healthy in Hh. cbn in *.
  unfold on_connection, bind, get_this, pipe, call, on_host, ret, bind.
  cbn. rewrite bool_decide_eq_false_2 by exact Hc. cbn.
  rewrite Hz, Hp. cbn. repeat (rewrite Hh; cbn). reflexivity.
Qed.

(** C1, as the code has it. The pipeline the handler of [start] builds for
    a connection is socket to parser, through the decompressor when
    compression is on, and ends at the parser: the handler makes these
    [pipe] calls and no other call, so it attaches no record consumer,
    invokes no [transform] and writes nothing to storage. *)
Theorem pipeline_ends_at_parser (s : St) (socket p : Stream) :
  healthy (host s) ->
  parser (this s) = Some p ->
  (compression (config (this s)) = Some "none" ->
   on_connection socket s = (Ok tt, MkSt (this s) (piped socket p (host s)))
   /\ pipes (host (after (on_connection socket) s))
      = (pipes (host s) ++ [MkPipe socket p false])%list
   /\ calls (host (after (on_connection socket) s))
      = (calls (host s) ++ [StreamPipe (MkPipe socket p false)])%list)
  /\
  (forall z,
      compression (config (this s)) <> Some "none" ->
      decrompressor (this s) = Some z ->
      on_connection socket s
      = (Ok tt, MkSt (this s) (piped z p (piped socket z (host s))))
      /\ pipes (host (after (on_connection socket) s))
         = (pipes (host s) ++ [MkPipe socket z false; MkPipe z p false])%list
      /\ calls (host (after (on_connection socket) s))
         = (calls (host s)
            ++ [StreamPipe (MkPipe socket z false);
                StreamPipe (MkPipe z p false)])%list)
  /\ consumer_calls (calls (host (after (on_connection socket) s)))
     = consumer_calls (calls (host s)).
Proof.
  intros Hh Hp.
  assert (Hplain :
    compression (config (this s)) = Some "none" ->
    on_connection socket s = (Ok tt, MkSt (this s) (piped socket p (host s)))
    /\ pipes (host (after (on_connection socket) s))
       = (pipes (host s) ++ [MkPipe socket p false])%list
    /\ calls (host (after (on_connection socket) s))
       = (calls (host s) ++ [StreamPipe (MkPipe socket p false)])%list).
  { intros Hc. unfold after.
    rewrite (on_connection_plain s socket p Hh Hp Hc). cbn. auto. }
  assert (Hgz : forall z,
    compression (config (this s)) <> Some "none" ->
    decrompressor (this s) = Some z ->
    on_connection socket s
    = (Ok tt, MkSt (this s) (piped z p (piped socket z (host s))))
    /\ pipes (host (after (on_connection socket) s))
       = (pipes (host s) ++ [MkPipe socket z false; MkPipe z p false])%list
    /\ calls (host (after (on_connection socket) s))
       = (calls (host s)
          ++ [StreamPipe (MkPipe socket z false);
              StreamPipe (MkPipe z p false)])%list).
  { intros z Hc Hz. unfold after.
    rewrite (on_connection_compressed s socket z p Hh Hp Hc Hz). cbn.
    rewrite <- !app_assoc. cbn. auto. }
  split; [exact Hplain|]. split; [exact Hgz|].
  destruct (decide (compression (config (this s)) = Some "none")) as [Hc|Hc].
  - destruct (Hplain Hc) as (_ & _ & ->).
    unfold consumer_calls. rewrite List.filter_app. cbn. apply app_nil_r.
  - destruct (decrompressor (this s)) as [z|] eqn:Hz.
    + destruct (Hgz z Hc eq_refl) as (_ & _ & ->).
      unfold consumer_calls. rewrite List.filter_app. cbn. apply app_nil_r.
    + unfold after, on_connection, bind, get_this. cbn.
      rewrite bool_decide_eq_false_2 by exact Hc. cbn. rewrite Hz. cbn.
      reflexivity.
Qed.

(** The first client of the example: one pipe, socket 1 to the parser. *)
Lemma pipeline_ends_at_parser_witness :
  on_connection (Socket 1) Example.started
  = (Ok tt,
     MkSt (this Example.started)
          (piped (Socket 1) (ParserStream 0) (host Example.started))).
Proof.
  apply (proj1 (pipeline_ends_at_parser Example.started (Socket 1)
                  (ParserStream 0)
                  (fun c => eq_refl) ltac:(vm_compute; reflexivity))).
  vm_compute; reflexivity.
Defined.

(** C1, as the claim states it, fails: the first client of the example
    sends two lines; the parser pushes two records, which stay unread in
    it: nothing is piped out of the parser, and no [transform] call and no
    write to storage is among the calls made. *)
Lemma records_reach_no_consumer :
  pipes (host Example.one_client)
  = [MkPipe (Socket 1) (ParserStream 0) false]
  /\ dests (pipes (host Example.one_client)) (ParserStream 0) = []
  /\ unread (socket_data string Example.lines_write (host Example.one_client) 1
               (Example.line "a" +:+ Example.line "b") Example.heap0)
            (ParserStream 0)
     = [Js.Str "a"; Js.Str "b"]
  /\ consumer_calls (calls (host Example.one_client)) = [].
Proof.
  split; [vm_compute; reflexivity|].
  split; [vm_compute; reflexivity|].
  split; vm_compute; reflexivity.
Qed.

(** ** Connections *)

(** C3, as the code has it. Every accepted connection is piped into the
    one parser the agent holds and, when compression is on, through the
    one decompressor the constructor created: after two connections the
    stream graph has both sockets lead to the same stages, each pipe made
    with [end: false], and the agent holds the same stages as before. *)
Theorem connections_share_stages (s : St) (fd1 fd2 : nat) (p : Stream) :
  healthy (host s) ->
  parser (this s) = Some p ->
  let s2 := after (on_connection (Socket fd2))
                  (after (on_connection (Socket fd1)) s) in
  (compression (config (this s)) = Some "none" ->
   this s2 = this s
   /\ pipes (host s2)
      = (pipes (host s)
         ++ [MkPipe (Socket fd1) p false; MkPipe (Socket fd2) p false])%list)
  /\
  (forall z,
      compression (config (this s)) <> Some "none" ->
      decrompressor (this s) = Some z ->
      this s2 = this s
      /\ pipes (host s2)
         = (pipes (host s)
            ++ [MkPipe (Socket fd1) z false; MkPipe z p false;
                MkPipe (Socket fd2) z false; MkPipe z p false])%list).
Proof.
  intros Hh Hp s2. subst s2. split.
  - intros Hc. unfold after.
    rewrite (on_connection_plain s (Socket fd1) p Hh Hp Hc). cbn [snd].
    rewrite (on_connection_plain _ (Socket fd2) p); cbn;
      [| now apply healthy_piped | exact Hp | exact Hc].
    split; [reflexivity|]. rewrite <- app_assoc. reflexivity.
  - intros z Hc Hz. unfold after.
    rewrite (on_connection_compressed s (Socket fd1) z p Hh Hp Hc Hz).
    cbn [snd].
    rewrite (on_connection_compressed _ (Socket fd2) z p); cbn;
      [| do 2 apply healthy_piped; exact Hh | exact Hp | exact Hc | exact Hz].
    split; [reflexivity|]. rewrite <- !app_assoc. reflexivity.
Qed.

(** The two clients of the example. *)
Lemma connections_share_stages_witness :
  pipes (host Example.two_clients)
  = (pipes (host Example.started)
     ++ [MkPipe (Socket 1) (ParserStream 0) false;
         MkPipe (Socket 2) (ParserStream 0) false])%list.
Proof.
  apply (proj1 (connections_share_stages Example.started 1 2 (ParserStream 0)
                  (fun c => eq_refl) ltac:(vm_compute; reflexivity))).
  vm_compute; reflexivity.
Defined.

(** C3, as the claim states it, fails: the two clients of the example are
    piped into the same parser, and under gzip into the same
    decompressor; what the second client's bytes are parsed to depends on
    the bytes the first one sent. *)
Lemma connections_interfere :
  dests (pipes (host Example.two_clients)) (Socket 1)
  = dests (pipes (host Example.two_clients)) (Socket 2)
  /\ pipes (host Example.two_gzip_clients)
     = [MkPipe (Socket 1) (Gunzip 0) false;
        MkPipe (Gunzip 0) (ParserStream 0) false;
        MkPipe (Socket 2) (Gunzip 0) false;
        MkPipe (Gunzip 0) (ParserStream 0) false]
  /\ Example.records (Example.data 2 (Example.line "c") Example.heap0)
     = [Js.Str "c"]
  /\ Example.records
       (Example.data 2 (Example.line "c")
          (Example.data 1 "ab" Example.heap0))
     = [Js.Str "abc"].
Proof.
  split; [vm_compute; reflexivity|].
  split; [vm_compute; reflexivity|].
  split; vm_compute; reflexivity.
Qed.

(** ** The logger *)

Lemma stdout_chunks_app (cs cs' : list Call) :
  stdout_chunks (cs ++ cs') = (stdout_chunks cs ++ stdout_chunks cs')%list.
Proof.
  induction cs as [|c cs IH]; [reflexivity|].
  destruct c; cbn; rewrite IH; reflexivity.
Qed.




(** * Further properties of the agent *)

(** ** Storage address: the edges *)

(** X3. When neither the configuration nor the environment yields an
    address, [connectStorage] throws [No storage available] and calls
    nothing; an environment value that is [tcp://] alone counts as none,
    since nothing is left of it after the replacement. *)
Theorem connectStorage_no_address (s : St) :
  Js.truthy (storage (config (this s)) !! "host") = false ->
  (env_STORAGE_PORT (host s) = None \/
   env_STORAGE_PORT (host s) = Some "" \/
   env_STORAGE_PORT (host s) = Some "tcp://") ->
  connectStorage s = (Throw (Error "No storage available"), s)
  /\ calls (host (after connectStorage s)) = calls (host s).
Proof.
  intros Hh He.
  assert (E : connectStorage s = (Throw (Error "No storage available"), s)).
  { apply connectStorage_unresolved; [exact Hh|].
    destruct He as [-> | [-> | ->]]; reflexivity. }
  unfold after. rewrite E. auto.
Qed.

Lemma connectStorage_no_address_witness :
  connectStorage (Example.from_env "tcp://")
  = (Throw (Error "No storage available"), Example.from_env "tcp://").
Proof.
  apply (proj1 (connectStorage_no_address (Example.from_env "tcp://")
                  eq_refl (or_intror (or_intror eq_refl)))).
Defined.

(** X4. A [config.storage.host] that is the empty string is treated as no
    host: the address is the environment's. *)
Theorem empty_host_falls_back (s : St) (e : string) :
  storage (config (this s)) !! "host" = Some "" ->
  env_STORAGE_PORT (host s) = Some e ->
  e <> "" ->
  Js.replace "tcp://" "" e <> "" ->
  connectStorage s
  = call (MongooseConnect
            ("mongodb://" +:+ Js.replace "tcp://" "" e +:+ "/" +:+ db_of s)) s.
Proof.
  intros Hh He Hne Hr. apply connectStorage_env_falsy; try assumption.
  rewrite Hh. reflexivity.
Qed.

Lemma empty_host_falls_back_witness :
  connectStorage (empty_host "tcp://172.17.0.2:27017")
  = call (MongooseConnect "mongodb://172.17.0.2:27017/x")
         (empty_host "tcp://172.17.0.2:27017").
Proof.
  apply (empty_host_falls_back (empty_host "tcp://172.17.0.2:27017")
           "tcp://172.17.0.2:27017");
    [reflexivity | reflexivity | discriminate | discriminate].
Defined.

(** X5. A configuration without [storage.db] still connects: the
    database part of the address is the text [undefined]. *)
Theorem missing_db_is_undefined (s : St) (hst : string) :
  storage (config (this s)) !! "db" = None ->
  storage (config (this s)) !! "host" = Some hst ->
  hst <> "" ->
  connectStorage s
  = call (MongooseConnect ("mongodb://" +:+ hst +:+ "/undefined")) s.
Proof.
  intros Hdb Hh Hne. rewrite (connectStorage_config s hst Hh Hne).
  unfold db_of. rewrite Hdb. reflexivity.
Qed.

Lemma missing_db_is_undefined_witness :
  connectStorage no_db
  = call (MongooseConnect "mongodb://localhost:27017/undefined") no_db.
Proof.
  apply (missing_db_is_undefined no_db "localhost:27017");
    [reflexivity | reflexivity | discriminate].
Defined.

(** ** Start: what it does and in which order *)

Lemma bind_ok {A B} (m : M A) (k : A -> M B) (s : St) (a : A) (s' : St) :
  m s = (Ok a, s') -> bind m k s = k a s'.
Proof. intros E. unfold bind. rewrite E. reflexivity. Qed.

Lemma bind_throw {A B} (m : M A) (k : A -> M B) (s : St) (e : Exn) (s' : St) :
  m s = (Throw e, s') -> bind m k s = (Throw e, s').
Proof. intros E. unfold bind. rewrite E. reflexivity. Qed.

(** Past its guard, [start] is the three steps that follow it. *)
Lemma start_with_parser (s : St) (p : Stream) :
  parser (this s) = Some p ->
  start s
  = (connectStorage ;;
     srv <- net_createServer ;;
     modify (set_incoming (Some srv)) ;;
     a' <- get_this ;;
     call (ServerListen srv (endpoint a'))) s.
Proof.
  intros Hp. unfold start. unfold bind at 1. unfold get_this.
  cbv beta iota. rewrite Hp.
  rewrite bool_decide_eq_true_2 by eauto. reflexivity.
Qed.

(** [start] when storage resolves to [url] and no call raises. *)
Lemma start_listening (s : St) (p : Stream) (url : string) :
  healthy (host s) ->
  parser (this s) = Some p ->
  connectStorage s = call (MongooseConnect url) s ->
  start s = (Ok tt, listening url s).
Proof.
  intros Hh Hp Hc.
  rewrite (start_with_parser s p Hp).
  rewrite (bind_ok connectStorage _ s tt
             (MkSt (this s) (record_call (MongooseConnect url) (host s)))).
  - unfold net_createServer, bind, on_host, fresh, call, ret, modify,
      get_this, listening.
    cbn. repeat (rewrite (Hh _); cbn). reflexivity.
  - rewrite Hc. apply call_ok. apply Hh.
Qed.

Lemma healthy_listening (url : string) (s : St) :
  healthy (host s) -> healthy (host (listening url s)).
Proof. intros Hh c. exact (Hh c). Qed.

Lemma calls_listening (url : string) (s : St) :
  calls (host (listening url s))
  = (calls (host s)
     ++ [MongooseConnect url;
         NetCreateServer (next_id (host s));
         ServerListen (next_id (host s)) (endpoint (this s))])%list.
Proof. unfold listening. cbn. rewrite <- !app_assoc. reflexivity. Qed.

(** X6. With a parser set and a configured storage host, [start] on a
    healthy host connects storage first, then creates the server, then
    listens on [this.endpoint]; the new server is kept in [this.incoming]
    and no stream is piped yet. *)
Theorem start_connects_then_listens (s : St) (p : Stream) (hst : string) :
  healthy (host s) ->
  parser (this s) = Some p ->
  storage (config (this s)) !! "host" = Some hst ->
  hst <> "" ->
  fst (start s) = Ok tt
  /\ incoming (this (after start s)) = Some (next_id (host s))
  /\ calls (host (after start s))
     = (calls (host s)
        ++ [MongooseConnect (url_of hst s);
            NetCreateServer (next_id (host s));
            ServerListen (next_id (host s)) (endpoint (this s))])%list
  /\ pipes (host (after start s)) = pipes (host s).
Proof.
  intros Hh Hp Hhost Hne.
  pose proof (start_listening s p (url_of hst s) Hh Hp
                (connectStorage_config s hst Hhost Hne)) as E.
  unfold after. rewrite E. cbn [fst snd].
  split; [reflexivity|]. split; [reflexivity|].
  split; [apply calls_listening | reflexivity].
Qed.

Lemma start_connects_then_listens_witness :
  calls (host (after start Example.created))
  = (calls (host Example.created)
     ++ [MongooseConnect (url_of "localhost:27017" Example.created);
         NetCreateServer (next_id (host Example.created));
         ServerListen (next_id (host Example.created))
                      (endpoint (this Example.created))])%list.
Proof.
  apply (start_connects_then_listens Example.created (ParserStream 0)
           "localhost:27017");
    [ intros c; reflexivity | vm_compute; reflexivity
    | vm_compute; reflexivity | discriminate ].
Defined.

(** X7. With a parser set but no address for storage, [start] throws
    [No storage available] before any server is created: no call is made
    and [this.incoming] stays as it was. *)
Theorem start_without_storage (s : St) (p : Stream) :
  parser (this s) = Some p ->
  Js.truthy (storage (config (this s)) !! "host") = false ->
  Js.truthy (Js.replace "tcp://" "" <$> env_STORAGE_PORT (host s)) = false ->
  start s = (Throw (Error "No storage available"), s).
Proof.
  intros Hp Hh He. rewrite (start_with_parser s p Hp).
  apply bind_throw. now apply connectStorage_unresolved.
Qed.

Lemma start_without_storage_witness :
  start no_address = (Throw (Error "No storage available"), no_address).
Proof.
  apply (start_without_storage no_address (ParserStream 0));
    vm_compute; reflexivity.
Defined.

(** ** The constructor: compression and calls *)

(** How the constructor settles compression, from the configured value. *)
Lemma new_BudaAgent_compression (conf : Conf) (h h1 : Host) (a : BudaAgent) :
  new_BudaAgent conf h = (Ok a, h1) ->
  (compression conf = Some "gzip" ->
   compression (config a) = Some "gzip"
   /\ decrompressor a = Some (Gunzip (next_id h)))
  /\
  (compression conf <> Some "gzip" ->
   compression (config a) = Some "none" /\ decrompressor a = None).
Proof.
  destruct conf as [loc comp stor]. destruct h as [env f n cs ps].
  unfold new_BudaAgent, constructor, bind, modify, get_this, schema_set,
    zlib_createGunzip, on_host, fresh, call, ret, bind.
  cbn.
  destruct comp as [c|]; cbn.
  - case_bool_decide as Hc; cbn.
    + case_faults f; intros E; inversion E; subst; clear E; cbn.
      all: split; [auto | intros Hn; congruence].
    + case_faults f; intros E; inversion E; subst; clear E; cbn.
      all: split; [intros Hn; congruence | auto].
  - case_bool_decide as Hc; [discriminate|]; cbn.
    case_faults f; intros E; inversion E; subst; clear E; cbn.
    all: split; [intros Hn; discriminate | auto].
Qed.

(** X1. The constructor normalises compression: exactly the value
    [gzip] keeps compression on and creates the one decompressor; an
    absent value and every other value end as [none] with no
    decompressor. The endpoint and the storage settings are the
    configuration's. *)
Theorem constructor_normalises_compression
  (conf : Conf) (h h1 : Host) (a : BudaAgent) :
  new_BudaAgent conf h = (Ok a, h1) ->
  (compression conf = Some "gzip" ->
   compression (config a) = Some "gzip"
   /\ decrompressor a = Some (Gunzip (next_id h)))
  /\
  (compression conf <> Some "gzip" ->
   compression (config a) = Some "none" /\ decrompressor a = None)
  /\ endpoint a = hotspot_location conf
  /\ storage (config a) = storage conf.
Proof.
  intros E.
  destruct (new_BudaAgent_compression conf h h1 a E) as [Hgz Hno].
  destruct (new_BudaAgent_fields conf h h1 a E) as (_ & _ & He & Hs & _).
  auto.
Qed.

Lemma constructor_normalises_compression_witness :
  compression (config (agent_of (new_BudaAgent conf_bzip2 Example.host0)))
  = Some "none"
  /\ decrompressor (agent_of (new_BudaAgent conf_bzip2 Example.host0)) = None.
Proof.
  destruct (new_BudaAgent conf_bzip2 Example.host0) as [o h1] eqn:E.
  destruct o as [a| |]; [|vm_compute in E; discriminate ..].
  apply (proj1 (proj2 (constructor_normalises_compression
                         conf_bzip2 Example.host0 h1 a E))).
  discriminate.
Defined.

(** X2. On a healthy host the constructor returns having made, in order,
    the decompressor (under gzip only), the schema with its two options,
    the model [Doc], and the registration of both signal handlers, and no
    other call: it connects to no storage, creates no server and pipes no
    stream. *)
Theorem constructor_host_calls (conf : Conf) (h : Host) :
  healthy h ->
  exists a h1,
    new_BudaAgent conf h = (Ok a, h1)
    /\ calls h1 = (calls h ++ constructor_calls conf (next_id h))%list
    /\ pipes h1 = pipes h.
Proof.
  intros Hh. destruct conf as [loc comp stor]. destruct h as [env f n cs ps].
  unfold healthy in Hh. cbn in Hh.
  unfold new_BudaAgent, constructor, bind, modify, get_this, schema_set,
    zlib_createGunzip, on_host, fresh, call, ret, bind, constructor_calls.
  cbn.
  destruct comp as [c|]; cbn.
  - case_bool_decide as Hc; cbn; repeat (rewrite Hh; cbn);
      eexists _, _; (split; [reflexivity|]); cbn;
      rewrite <- ?app_assoc; cbn; split; reflexivity.
  - case_bool_decide as Hc; [discriminate|]; cbn; repeat (rewrite Hh; cbn).
    rewrite bool_decide_eq_false_2 by discriminate.
    eexists _, _; (split; [reflexivity|]); cbn.
    rewrite <- ?app_assoc; cbn; split; reflexivity.
Qed.

Lemma constructor_host_calls_witness :
  exists a h1,
    new_BudaAgent Example.conf_gzip Example.host0 = (Ok a, h1)
    /\ calls h1
       = (calls Example.host0
          ++ constructor_calls Example.conf_gzip (next_id Example.host0))%list
    /\ pipes h1 = pipes Example.host0.
Proof.
  apply (constructor_host_calls Example.conf_gzip Example.host0).
  intros c. reflexivity.
Defined.

(** ** Start and exit, composed *)

(** [exit] on a healthy host, by an agent with the prototype's cleanup and
    a listener. *)
Lemma exit_default (s : St) (srv : nat) :
  healthy (host s) ->
  incoming (this s) = Some srv ->
  cleanup (this s) = prototype_cleanup ->
  fst (exit s) = Exited
  /\ calls (host (after exit s))
     = (calls (host s)
        ++ [ServerClose srv; MongooseDisconnect; InvokeCleanup;
            ProcessExit])%list.
Proof.
  intros Hh Hi Hk.
  assert (E : exit s = (Exited, MkSt (this s)
                 (record_call ProcessExit (at_cleanup s)))).
  { apply exit_completes.
    - unfold close_raises. rewrite Hi. apply Hh.
    - apply Hh.
    - rewrite Hk. reflexivity.
    - unfold at_cleanup, disconnected, closed. rewrite Hi. apply Hh. }
  unfold after. rewrite E. cbn [fst snd host].
  split; [reflexivity|].
  unfold at_cleanup, disconnected, closed. rewrite Hi. cbn.
  rewrite <- !app_assoc. reflexivity.
Qed.

(** X8. [exit] after [start] closes the server [start] created: on a
    healthy host, an agent with the prototype's cleanup that started with
    a configured storage host ends with the calls of [start] followed by
    [close] on that same server, the storage disconnect, the cleanup and
    the process exit. *)
Theorem exit_closes_started_server (s : St) (p : Stream) (hst : string) :
  healthy (host s) ->
  parser (this s) = Some p ->
  storage (config (this s)) !! "host" = Some hst ->
  hst <> "" ->
  cleanup (this s) = prototype_cleanup ->
  fst (exit (after start s)) = Exited
  /\ calls (host (after exit (after start s)))
     = (calls (host s)
        ++ [MongooseConnect (url_of hst s);
            NetCreateServer (next_id (host s));
            ServerListen (next_id (host s)) (endpoint (this s));
            ServerClose (next_id (host s));
            MongooseDisconnect; InvokeCleanup; ProcessExit])%list.
Proof.
  intros Hh Hp Hhost Hne Hk.
  pose proof (start_listening s p (url_of hst s) Hh Hp
                (connectStorage_config s hst Hhost Hne)) as E.
  assert (Ea : after start s = listening (url_of hst s) s)
    by (unfold after; rewrite E; reflexivity).
  rewrite Ea.
  destruct (exit_default (listening (url_of hst s) s) (next_id (host s)))
    as [Ho Hc].
  - now apply healthy_listening.
  - reflexivity.
  - exact Hk.
  - split; [exact Ho|].
    rewrite Hc, calls_listening, <- app_assoc. reflexivity.
Qed.

Lemma exit_closes_started_server_witness :
  fst (exit (after start Example.created)) = Exited.
Proof.
  apply (exit_closes_started_server Example.created (ParserStream 0)
           "localhost:27017");
    [ intros c; reflexivity | vm_compute; reflexivity
    | vm_compute; reflexivity | discriminate | vm_compute; reflexivity ].
Defined.

(** X9. [start] is not idempotent: a second [start] connects again and
    creates a second server, which replaces the first in [this.incoming];
    [exit] then closes the second server only, and the first is never
    closed. *)
Theorem second_start_orphans_server (s : St) (p : Stream) (hst : string) :
  healthy (host s) ->
  parser (this s) = Some p ->
  storage (config (this s)) !! "host" = Some hst ->
  hst <> "" ->
  cleanup (this s) = prototype_cleanup ->
  let n := next_id (host s) in
  let s2 := after start (after start s) in
  fst (start (after start s)) = Ok tt
  /\ incoming (this s2) = Some (S n)
  /\ calls (host (after exit s2))
     = (calls (host s)
        ++ [MongooseConnect (url_of hst s);
            NetCreateServer n;
            ServerListen n (endpoint (this s));
            MongooseConnect (url_of hst s);
            NetCreateServer (S n);
            ServerListen (S n) (endpoint (this s));
            ServerClose (S n);
            MongooseDisconnect; InvokeCleanup; ProcessExit])%list.
Proof.
  intros Hh Hp Hhost Hne Hk n s2. subst n s2.
  pose proof (start_listening s p (url_of hst s) Hh Hp
                (connectStorage_config s hst Hhost Hne)) as E1.
  set (s1 := listening (url_of hst s) s) in *.
  assert (E2 : start s1 = (Ok tt, listening (url_of hst s) s1)).
  { apply (start_listening s1 p).
    - now apply healthy_listening.
    - exact Hp.
    - apply (connectStorage_config s1 hst); [exact Hhost | exact Hne]. }
  assert (Ea1 : after start s = s1)
    by (unfold after; rewrite E1; reflexivity).
  assert (Ea2 : after start s1 = listening (url_of hst s) s1)
    by (unfold after; rewrite E2; reflexivity).
  rewrite Ea1, Ea2, E2. cbn [fst].
  split; [reflexivity|]. split; [reflexivity|].
  destruct (exit_default (listening (url_of hst s) s1) (S (next_id (host s))))
    as [_ Hc].
  - now do 2 apply healthy_listening.
  - reflexivity.
  - exact Hk.
  - rewrite Hc. subst s1. rewrite !calls_listening, <- !app_assoc.
    reflexivity.
Qed.

Lemma second_start_orphans_server_witness :
  incoming (this (after start (after start Example.created))) = Some 1.
Proof.
  apply (second_start_orphans_server Example.created (ParserStream 0)
           "localhost:27017");
    [ intros c; reflexivity | vm_compute; reflexivity
    | vm_compute; reflexivity | discriminate | vm_compute; reflexivity ].
Defined.

(** ** The handler on a constructed agent, and on many clients *)

(** X10. For every configuration, the agent the constructor returns,
    given a parser, handles a connection without raising on a healthy
    host: under [gzip] the socket is piped through the decompressor the
    constructor created, and under every other compression value, known
    or not, straight into the parser. *)
Theorem handler_fits_constructor
  (conf : Conf) (h h1 : Host) (a : BudaAgent) (p : Stream) (fd : nat) :
  new_BudaAgent conf h = (Ok a, h1) ->
  healthy h1 ->
  let s := MkSt (set_parser (Some p) a) h1 in
  fst (on_connection (Socket fd) s) = Ok tt
  /\ (compression conf = Some "gzip" ->
      pipes (host (after (on_connection (Socket fd)) s))
      = (pipes h1
         ++ [MkPipe (Socket fd) (Gunzip (next_id h)) false;
             MkPipe (Gunzip (next_id h)) p false])%list)
  /\ (compression conf <> Some "gzip" ->
      pipes (host (after (on_connection (Socket fd)) s))
      = (pipes h1 ++ [MkPipe (Socket fd) p false])%list).
Proof.
  intros E Hh s.
  destruct (new_BudaAgent_compression conf h h1 a E) as [Hgz Hno].
  destruct (decide (compression conf = Some "gzip")) as [Hc|Hc].
  - destruct (Hgz Hc) as [Hcomp Hz].
    assert (Eo : on_connection (Socket fd) s
                 = (Ok tt, MkSt (this s)
                      (piped (Gunzip (next_id h)) p
                         (piped (Socket fd) (Gunzip (next_id h)) (host s))))).
    { apply on_connection_compressed; subst s; cbn;
        [exact Hh | reflexivity | rewrite Hcomp; discriminate | exact Hz]. }
    unfold after. rewrite Eo. cbn [fst snd host].
    split; [reflexivity|]. split; [|intros Hn; contradiction].
    intros _. subst s. cbn. rewrite <- app_assoc. reflexivity.
  - destruct (Hno Hc) as [Hcomp Hz].
    assert (Eo : on_connection (Socket fd) s
                 = (Ok tt, MkSt (this s) (piped (Socket fd) p (host s)))).
    { apply on_connection_plain; subst s; cbn;
        [exact Hh | reflexivity | exact Hcomp]. }
    unfold after. rewrite Eo. cbn [fst snd host].
    split; [reflexivity|]. split; [intros Hn; contradiction|].
    intros _. reflexivity.
Qed.

Lemma handler_fits_constructor_witness :
  fst (on_connection (Socket 1)
         (MkSt (set_parser (Some (ParserStream 0))
                  (agent_of (new_BudaAgent conf_bzip2 Example.host0)))
               (snd (new_BudaAgent conf_bzip2 Example.host0))))
  = Ok tt.
Proof.
  destruct (new_BudaAgent conf_bzip2 Example.host0) as [o h1] eqn:E.
  destruct o as [a| |]; [|vm_compute in E; discriminate ..].
  apply (handler_fits_constructor conf_bzip2 Example.host0 h1 a
           (ParserStream 0) 1 E).
  vm_compute in E. injection E as _ <-. intros c. reflexivity.
Defined.

(** Any number of clients without compression: one edge each, all into
    the parser. *)
Lemma accept_plain (p : Stream) (fds : list nat) :
  forall s : St,
    healthy (host s) ->
    parser (this s) = Some p ->
    compression (config (this s)) = Some "none" ->
    exists h',
      accept fds s = (Ok tt, MkSt (this s) h')
      /\ pipes h' = (pipes (host s) ++ plain_edges p fds)%list.
Proof.
  induction fds as [|fd fds IH]; intros s Hh Hp Hc.
  - exists (host s). destruct s. cbn. rewrite app_nil_r. auto.
  - destruct (IH (MkSt (this s) (piped (Socket fd) p (host s)))
                 (healthy_piped _ _ _ Hh) Hp Hc)
      as (h' & E & Hpipes).
    cbn [this host] in E, Hpipes.
    exists h'. split.
    + cbn [accept].
      rewrite (bind_ok _ _ s tt _ (on_connection_plain s (Socket fd) p Hh Hp Hc)).
      exact E.
    + rewrite Hpipes. cbn. rewrite <- app_assoc. reflexivity.
Qed.

(** Any number of clients under compression: two edges each, all through
    the one decompressor into the parser. *)
Lemma accept_compressed (z p : Stream) (fds : list nat) :
  forall s : St,
    healthy (host s) ->
    parser (this s) = Some p ->
    compression (config (this s)) <> Some "none" ->
    decrompressor (this s) = Some z ->
    exists h',
      accept fds s = (Ok tt, MkSt (this s) h')
      /\ pipes h' = (pipes (host s) ++ compressed_edges z p fds)%list.
Proof.
  induction fds as [|fd fds IH]; intros s Hh Hp Hc Hz.
  - exists (host s). destruct s. cbn. rewrite app_nil_r. auto.
  - destruct (IH (MkSt (this s)
                    (piped z p (piped (Socket fd) z (host s))))
                 (healthy_piped _ _ _ (healthy_piped _ _ _ Hh)) Hp Hc Hz)
      as (h' & E & Hpipes).
    cbn [this host] in E, Hpipes.
    exists h'. split.
    + cbn [accept].
      rewrite (bind_ok _ _ s tt _
                 (on_connection_compressed s (Socket fd) z p Hh Hp Hc Hz)).
      exact E.
    + rewrite Hpipes. cbn. rewrite <- !app_assoc. reflexivity.
Qed.

Lemma dests_app (g g' : list Pipe) (x : Stream) :
  dests (g ++ g') x = (dests g x ++ dests g' x)%list.
Proof. unfold dests. rewrite filter_app, fmap_app. reflexivity. Qed.

(** Among the edges of [fds] under compression, the decompressor has the
    parser as destination once per client. *)
Lemma dests_compressed_edges (id : nat) (p : Stream) (fds : list nat) :
  dests (compressed_edges (Gunzip id) p fds) (Gunzip id)
  = repeat p (length fds).
Proof.
  induction fds as [|fd fds IH]; [reflexivity|].
  cbn [compressed_edges flat_map length repeat].
  change (flat_map _ fds) with (compressed_edges (Gunzip id) p fds).
  rewrite (dests_app [_; _]). rewrite IH.
  unfold dests at 1.
  rewrite filter_cons_False by (cbn; discriminate).
  rewrite filter_cons_True by reflexivity.
  reflexivity.
Qed.

(** X11. However many clients connect, the agent keeps its one parser
    and its one decompressor: after the handler ran for the clients
    [fds], the stream graph has grown by one edge per client into the
    parser, or under compression by two edges per client, through the
    decompressor, so that the decompressor has been piped into the parser
    once per client; [this] is as it was. *)
Theorem accept_wires_every_client (s : St) (p : Stream) (fds : list nat) :
  healthy (host s) ->
  parser (this s) = Some p ->
  (compression (config (this s)) = Some "none" ->
   fst (accept fds s) = Ok tt
   /\ this (after (accept fds) s) = this s
   /\ pipes (host (after (accept fds) s))
      = (pipes (host s) ++ plain_edges p fds)%list)
  /\
  (forall id,
      compression (config (this s)) <> Some "none" ->
      decrompressor (this s) = Some (Gunzip id) ->
      fst (accept fds s) = Ok tt
      /\ this (after (accept fds) s) = this s
      /\ pipes (host (after (accept fds) s))
         = (pipes (host s) ++ compressed_edges (Gunzip id) p fds)%list
      /\ dests (pipes (host (after (accept fds) s))) (Gunzip id)
         = (dests (pipes (host s)) (Gunzip id)
            ++ repeat p (length fds))%list).
Proof.
  intros Hh Hp. split.
  - intros Hc. destruct (accept_plain p fds s Hh Hp Hc) as (h' & E & Hpipes).
    unfold after. rewrite E. cbn. auto.
  - intros id Hc Hz.
    destruct (accept_compressed (Gunzip id) p fds s Hh Hp Hc Hz)
      as (h' & E & Hpipes).
    unfold after. rewrite E. cbn [fst snd this host].
    split; [reflexivity|]. split; [reflexivity|]. split; [exact Hpipes|].
    rewrite Hpipes, dests_app, dests_compressed_edges. reflexivity.
Qed.

(** Three clients of the agent of the example under gzip. *)
Lemma accept_wires_every_client_witness :
  dests (pipes (host (after (accept [1; 2; 3])
                        (after start Example.created_gzip))))
        (Gunzip 0)
  = [ParserStream 0; ParserStream 0; ParserStream 0].
Proof.
  apply (proj2 (accept_wires_every_client
                  (after start Example.created_gzip) (ParserStream 0)
                  [1; 2; 3] (fun c => eq_refl)
                  ltac:(vm_compute; reflexivity)) 0).
  - vm_compute. discriminate.
  - vm_compute. reflexivity.
Defined.

(** ** The logger over several calls *)

(** One call of [log] with a loggable message, on a healthy host. *)
Lemma log_loggable
  (JSON_stringify : Js.Value -> string) (m : Js.Value) (s : St) :
  healthy (host s) ->
  loggable m = true ->
  log JSON_stringify m s
  = (Ok tt,
     MkSt (this s)
          (record_call (StdoutWrite (rendered JSON_stringify m)) (host s))).
Proof.
  intros Hh Hm. destruct m; cbn in Hm; try discriminate;
    unfold log, stdout_write; cbn [Js.isObject rendered];
    apply call_ok; apply Hh.
Qed.

(** X12. Successive calls of [log] put their chunks on standard output
    one after the other with nothing between them: after logging the
    messages [msgs] (structured values or text) the output has grown by
    their chunks in order, text as it is and every structured value as
    its serialization. *)
Theorem log_all_appends_chunks
  (JSON_stringify : Js.Value -> string) (msgs : list Js.Value) :
  forall s : St,
    healthy (host s) ->
    forallb loggable msgs = true ->
    fst (log_all JSON_stringify msgs s) = Ok tt
    /\ stdout_chunks (calls (host (after (log_all JSON_stringify msgs) s)))
       = (stdout_chunks (calls (host s))
          ++ List.map (rendered JSON_stringify) msgs)%list.
Proof.
  induction msgs as [|m msgs IH]; intros s Hh Hall.
  - cbn. rewrite app_nil_r. auto.
  - cbn [forallb] in Hall. apply andb_true_iff in Hall as [Hm Hall].
    pose proof (log_loggable JSON_stringify m s Hh Hm) as E.
    destruct (IH (MkSt (this s)
                    (record_call (StdoutWrite (rendered JSON_stringify m))
                                 (host s)))
                 (fun c => Hh c) Hall) as [Ho Hc].
    unfold after in *. cbn [log_all].
    rewrite (bind_ok _ _ s tt _ E).
    split; [exact Ho|].
    rewrite Hc. cbn [host calls record_call].
    rewrite stdout_chunks_app. cbn. rewrite <- app_assoc. reflexivity.
Qed.

(** Two lines of text, logged by the started agent of the example; no
    message of the run is serialized. *)
Lemma log_all_appends_chunks_witness :
  stdout_chunks
    (calls (host (after (log_all (fun _ => "")
                           [Js.Str "Agent ready"; Js.Str "bye"])
                        Example.started)))
  = (stdout_chunks (calls (host Example.started))
     ++ ["Agent ready"; "bye"])%list.
Proof.
  apply (log_all_appends_chunks (fun _ => "")
           [Js.Str "Agent ready"; Js.Str "bye"] Example.started).
  - intros c. reflexivity.
  - reflexivity.
Defined.
